(** * speakflow: backend/get_transcript.py

    A shallow embedding of the transcript fetcher script.  The script calls
    two libraries: [YouTubeTranscriptApi.get_transcript] (the remote
    transcript provider, kept abstract here) and [json.dumps] (modelled
    after the encoder of Python's [json] package with its default
    arguments).  Everything else (the fallback chain of [get_transcript],
    the argument check, the print loop and the error path of the
    [__main__] block) is embedded statement by statement in a small
    state-and-exception monad. *)

From Stdlib Require Import ZArith List String Ascii Bool Lia.
From Stdlib Require Import Floats.SpecFloat.
Import ListNotations.

Open Scope Z_scope.

(** ** Python values *)

(** A Python [str] is a sequence of Unicode code points. *)
Definition pystr := list Z.

(** A string literal of the source, as a [pystr]. *)
Definition lit (s : string) : pystr :=
  map (fun a => Z.of_N (N_of_ascii a)) (list_ascii_of_string s).

(** An instance of [Exception]: its class name and what [str(e)] returns.
    The errors of the transcript library, of the network layer under it
    and of [json] are all of this kind, and they are what [except
    Exception] catches.  [SystemExit], which [sys.exit] raises and
    [except Exception] lets through, is a separate outcome below. *)
Record exception := mkException {
  exc_class : pystr;
  exc_str : pystr
}.

(** Dictionary keys: the hashable values [json] knows how to coerce, and
    any other hashable object, of which only the class name matters. *)
Inductive pykey :=
| KStr (s : pystr)
| KFloat (x : spec_float)
| KBool (b : bool)
| KNone
| KInt (n : Z)
| KObject (class_name : pystr).

(** The objects [json.dumps] can meet.  A dict is its list of items in
    insertion order; [PList] stands for lists and tuples; [PObject] is any
    other object. *)
#[local] Unset Elimination Schemes.
Inductive pyval :=
| PStr (s : pystr)
| PNone
| PBool (b : bool)
| PInt (n : Z)
| PFloat (x : spec_float)
| PList (items : list pyval)
| PDict (items : list (pykey * pyval))
| PObject (class_name : pystr).
#[local] Set Elimination Schemes.

(** What the provider hands back: a list of entries. *)
Definition transcript := list pyval.

(** ** json.encoder *)

Definition hexdigit (d : Z) : Z :=
  nth (Z.to_nat d) (lit "0123456789abcdef") 48.

(** ['{0:04x}'.format(n)], used by the encoder for [n < 0x10000] only:
    the four hexadecimal digits of [n]. *)
Definition format_04x (n : Z) : pystr :=
  [ hexdigit (Z.land (Z.shiftr n 12) 15);
    hexdigit (Z.land (Z.shiftr n 8) 15);
    hexdigit (Z.land (Z.shiftr n 4) 15);
    hexdigit (Z.land n 15) ].

(** [ESCAPE_ASCII]: the characters the encoder replaces, namely the
    backslash, the double quote and everything outside space..tilde. *)
Definition ESCAPE_ASCII (c : Z) : bool :=
  (c =? 92) || (c =? 34) || negb ((32 <=? c) && (c <=? 126)).

(** [ESCAPE_DCT]: the short escapes, then the entries that the loop
    [for i in range(0x20): ESCAPE_DCT.setdefault(chr(i), ...)] adds for
    the other control characters. *)
Definition ESCAPE_DCT (c : Z) : option pystr :=
  if c =? 92 then Some [92; 92]
  else if c =? 34 then Some [92; 34]
  else if c =? 8 then Some (lit "\b")
  else if c =? 12 then Some (lit "\f")
  else if c =? 10 then Some (lit "\n")
  else if c =? 13 then Some (lit "\r")
  else if c =? 9 then Some (lit "\t")
  else if (0 <=? c) && (c <? 32) then Some (lit "\u" ++ format_04x c)
  else None.

(** The [replace] callback of [py_encode_basestring_ascii]. *)
Definition replace (c : Z) : pystr :=
  match ESCAPE_DCT c with
  | Some s => s
  | None =>
      let n := c in
      if n <? 65536 then lit "\u" ++ format_04x n
      else
        let n := n - 65536 in
        let s1 := Z.lor 55296 (Z.land (Z.shiftr n 10) 1023) in
        let s2 := Z.lor 56320 (Z.land n 1023) in
        lit "\u" ++ format_04x s1 ++ lit "\u" ++ format_04x s2
  end.

(** [ESCAPE_ASCII.sub(replace, s)] *)
Definition escape_sub (s : pystr) : pystr :=
  flat_map (fun c => if ESCAPE_ASCII c then replace c else [c]) s.

(** [py_encode_basestring_ascii(s)]: the JSON string literal for [s],
    with everything outside [' '..'~'] escaped ([ensure_ascii=True]). *)
Definition py_encode_basestring_ascii (s : pystr) : pystr :=
  34 :: escape_sub s ++ [34].

(** [int.__repr__]: decimal digits, with a leading minus sign (the
    interpreter's limit on the number of digits is left out). *)
Fixpoint uint_digits (d : Decimal.uint) : pystr :=
  match d with
  | Decimal.Nil => []
  | Decimal.D0 d => 48 :: uint_digits d
  | Decimal.D1 d => 49 :: uint_digits d
  | Decimal.D2 d => 50 :: uint_digits d
  | Decimal.D3 d => 51 :: uint_digits d
  | Decimal.D4 d => 52 :: uint_digits d
  | Decimal.D5 d => 53 :: uint_digits d
  | Decimal.D6 d => 54 :: uint_digits d
  | Decimal.D7 d => 55 :: uint_digits d
  | Decimal.D8 d => 56 :: uint_digits d
  | Decimal.D9 d => 57 :: uint_digits d
  end.

Definition int_repr (n : Z) : pystr :=
  match Z.to_int n with
  | Decimal.Pos d => uint_digits d
  | Decimal.Neg d => 45 :: uint_digits d
  end.

(** A library call either returns or raises an [Exception]. *)
Inductive result (A : Type) :=
| Success (a : A)
| Failure (e : exception).
Arguments Success {A} a.
Arguments Failure {A} e.

Definition TypeError (msg : pystr) : exception :=
  mkException (lit "TypeError") msg.

(** [''.join] of the chunks with the item separator between them. *)
Definition join (sep : pystr) (chunks : list pystr) : pystr :=
  match chunks with
  | [] => []
  | c :: cs => c ++ flat_map (fun x => sep ++ x) cs
  end.

(** Encode the items of a container from left to right; the first item
    that raises ends the encoding. *)
Definition encode_items {A : Type} (f : A -> result pystr) :
  list A -> result (list pystr) :=
  fix go (l : list A) : result (list pystr) :=
    match l with
    | [] => Success []
    | x :: l' =>
        match f x with
        | Failure e => Failure e
        | Success chunk =>
            match go l' with
            | Failure e => Failure e
            | Success chunks => Success (chunk :: chunks)
            end
        end
    end.

(** A scripted provider for the examples below: the remote side is the
    list of answers it will give, consumed one per request. *)
Definition scripted_world := list (result transcript).

Definition scripted_provider (video_id : pystr) (languages : list pystr)
  (w : scripted_world) : result transcript * scripted_world :=
  match w with
  | r :: w' => (r, w')
  | [] => (Failure (mkException (lit "ConnectionError") (lit "offline")), [])
  end.

Definition no_transcript : exception :=
  mkException (lit "NoTranscriptFound") (lit "No transcripts were found for [en]").

Definition transcripts_disabled : exception :=
  mkException (lit "TranscriptsDisabled") (lit "Subtitles are disabled for this video").

Definition demo_prog : pystr := lit "get_transcript.py".
Definition demo_video : pystr := lit "dQw4w9WgXcQ".

(** A stand-in for [float.__repr__] in the examples below. *)
Definition toy_float_repr (x : spec_float) : pystr :=
  match x with
  | S754_zero false => lit "0.0"
  | S754_zero true => lit "-0.0"
  | _ => lit "1.5"
  end.

(** Another stand-in, which prints every float alike. *)
Definition toy_float_repr_zero (x : spec_float) : pystr := lit "0.0".

(** The provider's entry of the data model: a text, a start time and a
    duration. *)
Record entry := mkEntry {
  text : pystr;
  start_time : spec_float;
  duration : spec_float
}.

(** The dict the provider builds for an entry, under its field names. *)
Definition entry_dict (k_text k_start k_duration : pystr) (e : entry) : pyval :=
  PDict [ (KStr k_text, PStr (text e));
          (KStr k_start, PFloat (start_time e));
          (KStr k_duration, PFloat (duration e)) ].

(** Two entries, the first with a character beyond ASCII and a line
    break in its text, as the provider would return them. *)
Definition demo_entries : list entry :=
  [ mkEntry (lit "caf" ++ [233; 10] ++ lit "ol") (S754_zero false)
      (S754_finite false 3 (-1));
    mkEntry (lit "[Music]") (S754_finite false 3 (-1)) (S754_finite false 3 (-1)) ].

Definition demo_transcript : transcript :=
  map (entry_dict (lit "text") (lit "start") (lit "duration")) demo_entries.

(** The characters from space to tilde. *)
Definition printable (c : Z) : Prop := 32 <= c <= 126.

Definition is_ascii (c : Z) : Prop := 0 <= c < 128.

(** How a statement ends: normally, with an [Exception] propagating, or
    with the [SystemExit] of [sys.exit] propagating.  [except Exception]
    catches the second and lets the third through. *)
Inductive outcome (A : Type) :=
| Normal (a : A)
| Raised (e : exception)
| Exited (status : Z).
Arguments Normal {A} a.
Arguments Raised {A} e.
Arguments Exited {A} status.

(** The keys [json] coerces, and the values it can encode: everything
    but objects of other classes, at any depth. *)
Definition key_ok (key : pykey) : bool :=
  match key with
  | KObject _ => false
  | _ => true
  end.

Fixpoint serialisable (o : pyval) : bool :=
  match o with
  | PList lst => forallb serialisable lst
  | PDict dct =>
      forallb (fun item => let '(key, value) := item in
                           key_ok key && serialisable value) dct
  | PObject _ => false
  | _ => true
  end.

(** A code point a text can hold: in the Unicode range and not a
    surrogate. *)
Definition scalar_value (c : Z) : Prop :=
  0 <= c <= 1114111 /\ ~ (55296 <= c <= 57343).

(** Reading an escaped text back, one character at a time; used below
    to show that escaping loses nothing. *)
Definition hexval (d : Z) : Z :=
  if (48 <=? d) && (d <=? 57) then d - 48 else d - 87.

Definition read_04x (a b c d : Z) : Z :=
  4096 * hexval a + 256 * hexval b + 16 * hexval c + hexval d.

Definition unescape_head (s : pystr) : option (Z * pystr) :=
  match s with
  | [] => None
  | c :: s' =>
      if c =? 92 then
        match s' with
        | [] => None
        | k :: s'' =>
            if k =? 117 then
              match s'' with
              | a :: b :: c :: d :: r =>
                  let n := read_04x a b c d in
                  if (55296 <=? n) && (n <=? 56319) then
                    match r with
                    | _ :: _ :: a' :: b' :: c' :: d' :: r' =>
                        Some (65536 + (n - 55296) * 1024
                              + (read_04x a' b' c' d' - 56320), r')
                    | _ => None
                    end
                  else Some (n, r)
              | _ => None
              end
            else if k =? 98 then Some (8, s'')
            else if k =? 102 then Some (12, s'')
            else if k =? 110 then Some (10, s'')
            else if k =? 114 then Some (13, s'')
            else if k =? 116 then Some (9, s'')
            else Some (k, s'')
      end
      else Some (c, s')
  end.

(** What the encoder writes for one character. *)
Definition token (c : Z) : pystr := if ESCAPE_ASCII c then replace c else [c].

(** Closes goals about the characters of a string literal. *)
Ltac literal := unfold printable; repeat constructor; cbn; lia.

Section Program.

(** [float.__repr__] on finite floats (the shortest decimal string that
    reads back as the same float) is kept abstract. *)
Variable float_repr : spec_float -> pystr.

(** The remote side and [YouTubeTranscriptApi.get_transcript]: given the
    video id and the language list, the provider answers with a
    transcript or raises, and the remote side moves on. *)
Variable world : Type.
Variable provider : pystr -> list pystr -> world -> result transcript * world.

(** *** json.dumps with the default arguments *)

(** [floatstr] of [json.encoder], with [allow_nan=True]. *)
Definition floatstr (o : spec_float) : pystr :=
  match o with
  | S754_nan => lit "NaN"
  | S754_infinity false => lit "Infinity"
  | S754_infinity true => lit "-Infinity"
  | _ => float_repr o
  end.

(** The key coercion of [_iterencode_dict], with [skipkeys=False]. *)
Definition encode_key (key : pykey) : result pystr :=
  match key with
  | KStr s => Success s
  | KFloat x => Success (floatstr x)
  | KBool true => Success (lit "true")
  | KBool false => Success (lit "false")
  | KNone => Success (lit "null")
  | KInt n => Success (int_repr n)
  | KObject class_name =>
      Failure (TypeError
        (lit "keys must be str, int, float, bool or None, not " ++ class_name))
  end.

(** [_iterencode], with the chunks already joined: separators [', '] and
    [': '], no indentation, [ensure_ascii=True], [sort_keys=False], and the
    default [default], which raises [TypeError].  Three error paths of
    the interpreter are left out, each of which makes the real call raise
    where this one returns: the recursion limit on deeply nested values,
    the circular-reference check (a value here is a finite tree), and the
    digit limit of [int.__repr__] on very large integers. *)
Fixpoint iterencode (o : pyval) : result pystr :=
  match o with
  | PStr s => Success (py_encode_basestring_ascii s)
  | PNone => Success (lit "null")
  | PBool true => Success (lit "true")
  | PBool false => Success (lit "false")
  | PInt n => Success (int_repr n)
  | PFloat x => Success (floatstr x)
  | PList lst =>
      match lst with
      | [] => Success (lit "[]")
      | _ =>
          match encode_items iterencode lst with
          | Failure e => Failure e
          | Success chunks => Success (lit "[" ++ join (lit ", ") chunks ++ lit "]")
          end
      end
  | PDict dct =>
      match dct with
      | [] => Success (lit "{}")
      | _ =>
          match
            encode_items
              (fun item =>
                 let '(key, value) := item in
                 match encode_key key with
                 | Failure e => Failure e
                 | Success k =>
                     match iterencode value with
                     | Failure e => Failure e
                     | Success chunk =>
                         Success (py_encode_basestring_ascii k ++ lit ": " ++ chunk)
                     end
                 end)
              dct
          with
          | Failure e => Failure e
          | Success chunks => Success (lit "{" ++ join (lit ", ") chunks ++ lit "}")
          end
      end
  | PObject class_name =>
      Failure (TypeError
        (lit "Object of type " ++ class_name ++ lit " is not JSON serializable"))
  end.

Definition json_dumps (obj : pyval) : result pystr := iterencode obj.

(** *** The process: streams, the requests sent so far, the remote side *)

Record process := mkProcess {
  stdout : pystr;
  stderr : pystr;
  requests : list (pystr * list pystr);
  remote : world
}.

Definition M (A : Type) := process -> outcome A * process.

Definition ret {A} (a : A) : M A := fun p => (Normal a, p).

Definition bind {A B} (m : M A) (k : A -> M B) : M B :=
  fun p =>
    match m p with
    | (Normal a, p') => k a p'
    | (Raised e, p') => (Raised e, p')
    | (Exited n, p') => (Exited n, p')
    end.

Notation "x <- m ;; k" := (bind m (fun x => k))
  (at level 61, m at next level, right associativity).
Notation "m ;; k" := (bind m (fun _ => k))
  (at level 61, right associativity).

Definition raise {A} (e : exception) : M A := fun p => (Raised e, p).

Definition sys_exit {A} (status : Z) : M A := fun p => (Exited status, p).

(** [try: body / except Exception as e: handler e] *)
Definition try_except {A} (body : M A) (handler : exception -> M A) : M A :=
  fun p =>
    match body p with
    | (Raised e, p') => handler e p'
    | r => r
    end.

(** A library call that touches nothing of the process. *)
Definition call {A} (r : result A) : M A :=
  match r with
  | Success a => ret a
  | Failure e => raise e
  end.

(** [print(s)] and [print(s, file=sys.stderr)] *)
Definition print (s : pystr) : M unit :=
  fun p => (Normal tt,
            mkProcess (stdout p ++ s ++ [10]) (stderr p) (requests p) (remote p)).

Definition print_stderr (s : pystr) : M unit :=
  fun p => (Normal tt,
            mkProcess (stdout p) (stderr p ++ s ++ [10]) (requests p) (remote p)).

(** [for x in l: body x] *)
Fixpoint for_each {A} (l : list A) (body : A -> M unit) : M unit :=
  match l with
  | [] => ret tt
  | x :: l' => body x ;; for_each l' body
  end.

(** [YouTubeTranscriptApi.get_transcript(video_id, languages=...)]: the
    request is recorded, the provider answers. *)
Definition YouTubeTranscriptApi_get_transcript
  (video_id : pystr) (languages : list pystr) : M transcript :=
  fun p =>
    let '(r, w) := provider video_id languages (remote p) in
    let p' := mkProcess (stdout p) (stderr p)
                (requests p ++ [(video_id, languages)]) w in
    match r with
    | Success t => (Normal t, p')
    | Failure e => (Raised e, p')
    end.

(** *** get_transcript.py *)

Definition get_transcript (video_id : pystr) : M transcript :=
  try_except
    (YouTubeTranscriptApi_get_transcript video_id [lit "en"])
    (fun e =>
       try_except
         (YouTubeTranscriptApi_get_transcript video_id [lit "en-US"; lit "en-GB"])
         (fun e2 => raise e)).

Definition usage : pystr := lit "Usage: python get_transcript.py <video_id>".

(** The [__main__] block; [argv] is [sys.argv]. *)
Definition main (argv : list pystr) : M unit :=
  if negb (Nat.eqb (List.length argv) 2) then
    print_stderr usage ;;
    sys_exit 1
  else
    let video_id := nth 1 argv [] in
    try_except
      (transcript <- get_transcript video_id ;;
       for_each transcript (fun entry =>
         line <- call (json_dumps entry) ;;
         print line))
      (fun e =>
         print_stderr (lit "Error: " ++ exc_str e) ;;
         sys_exit 1).

(** What the print loop writes for a transcript, and the exception that
    stops it, if any: the specification of the loop as a function on the
    list of entries. *)
Fixpoint expected_output (t : transcript) : pystr * option exception :=
  match t with
  | [] => ([], None)
  | entry :: t' =>
      match json_dumps entry with
      | Failure e => ([], Some e)
      | Success line =>
          let '(out, stop) := expected_output t' in
          (line ++ [10] ++ out, stop)
      end
  end.

(** The JSON object the spec expects for an entry: its three fields in
    the provider's order, each under the provider's name. *)
Definition json_object_line (k_text k_start k_duration : pystr) (e : entry) : pystr :=
  lit "{" ++ py_encode_basestring_ascii k_text ++ lit ": "
          ++ py_encode_basestring_ascii (text e) ++ lit ", "
          ++ py_encode_basestring_ascii k_start ++ lit ": "
          ++ floatstr (start_time e) ++ lit ", "
          ++ py_encode_basestring_ascii k_duration ++ lit ": "
          ++ floatstr (duration e) ++ lit "}".

(** The two language lists of the source, and the body of its loop. *)
Definition en : list pystr := [lit "en"].
Definition en_variants : list pystr := [lit "en-US"; lit "en-GB"].

Definition print_entry (entry : pyval) : M unit :=
  line <- call (json_dumps entry) ;;
  print line.

(** A fresh process. *)
Definition initial (w : world) : process := mkProcess [] [] [] w.

(** The exit status of the interpreter: 0 when the script runs to its
    end, the argument of [sys.exit], 1 for an uncaught exception. *)
Definition exit_status {A} (o : outcome A) : Z :=
  match o with
  | Normal _ => 0
  | Exited status => status
  | Raised _ => 1
  end.

Definition run (argv : list pystr) (w : world) : Z * process :=
  let '(o, p) := main argv (initial w) in (exit_status o, p).


(** ** The fallback chain *)

Lemma get_transcript_primary (video_id : pystr) (p : process) t w1 :
  provider video_id en (remote p) = (Success t, w1) ->
  get_transcript video_id p =
    (Normal t,
     mkProcess (stdout p) (stderr p) (requests p ++ [(video_id, en)]) w1).
Proof.
  intros H1. unfold get_transcript, try_except, YouTubeTranscriptApi_get_transcript.
  fold en. rewrite H1. reflexivity.
Qed.

Lemma get_transcript_fallback (video_id : pystr) (p : process) e w1 t w2 :
  provider video_id en (remote p) = (Failure e, w1) ->
  provider video_id en_variants w1 = (Success t, w2) ->
  get_transcript video_id p =
    (Normal t,
     mkProcess (stdout p) (stderr p)
       (requests p ++ [(video_id, en); (video_id, en_variants)]) w2).
Proof.
  intros H1 H2. unfold get_transcript, try_except, YouTubeTranscriptApi_get_transcript.
  fold en en_variants. rewrite H1. cbn. rewrite H2. cbn.
  rewrite <- app_assoc. reflexivity.
Qed.

Lemma get_transcript_both_fail (video_id : pystr) (p : process) e w1 e2 w2 :
  provider video_id en (remote p) = (Failure e, w1) ->
  provider video_id en_variants w1 = (Failure e2, w2) ->
  get_transcript video_id p =
    (Raised e,
     mkProcess (stdout p) (stderr p)
       (requests p ++ [(video_id, en); (video_id, en_variants)]) w2).
Proof.
  intros H1 H2. unfold get_transcript, try_except, YouTubeTranscriptApi_get_transcript.
  fold en en_variants. rewrite H1. cbn. rewrite H2. cbn.
  rewrite <- app_assoc. reflexivity.
Qed.

(** Whatever the provider does, [get_transcript] returns or raises, sends
    one or two requests, the first for [en], and leaves both streams
    alone. *)
Lemma get_transcript_cases (video_id : pystr) (p : process) :
  exists o rest w,
    get_transcript video_id p =
      (o, mkProcess (stdout p) (stderr p)
            (requests p ++ (video_id, en) :: rest) w)
    /\ ((exists t, o = Normal t) \/ (exists e, o = Raised e)).
Proof.
  destruct (provider video_id en (remote p)) as [[t|e] w1] eqn:H1.
  - exists (Normal t), [], w1. split; [now apply get_transcript_primary | eauto].
  - destruct (provider video_id en_variants w1) as [[t|e2] w2] eqn:H2.
    + exists (Normal t), [(video_id, en_variants)], w2.
      split; [now apply get_transcript_fallback with (e := e) (w1 := w1) | eauto].
    + exists (Raised e), [(video_id, en_variants)], w2.
      split; [now apply get_transcript_both_fail with (w1 := w1) (e2 := e2) | eauto].
Qed.

(** ** The print loop *)

Lemma for_each_print (t : transcript) (p : process) :
  for_each t print_entry p =
    (match snd (expected_output t) with
     | None => Normal tt
     | Some e => Raised e
     end,
     mkProcess (stdout p ++ fst (expected_output t)) (stderr p)
       (requests p) (remote p)).
Proof.
  revert p. induction t as [|entry t IH]; intros p.
  - cbn. rewrite app_nil_r. now destruct p.
  - cbn [for_each expected_output]. unfold bind at 1, print_entry at 1, bind at 1.
    destruct (json_dumps entry) as [line|e]; cbn.
    + rewrite IH. cbn.
      destruct (expected_output t) as [out stop]. cbn.
      now rewrite <- !app_assoc.
    + rewrite app_nil_r. now destruct p.
Qed.

(** ** The whole program on one argument *)

Lemma main_one_argument (prog video_id : pystr) (p : process) :
  main [prog; video_id] p =
    match get_transcript video_id p with
    | (Normal t, p1) =>
        match snd (expected_output t) with
        | None =>
            (Normal tt,
             mkProcess (stdout p1 ++ fst (expected_output t)) (stderr p1)
               (requests p1) (remote p1))
        | Some e =>
            (Exited 1,
             mkProcess (stdout p1 ++ fst (expected_output t))
               (stderr p1 ++ (lit "Error: " ++ exc_str e) ++ [10])
               (requests p1) (remote p1))
        end
    | (Raised e, p1) =>
        (Exited 1,
         mkProcess (stdout p1) (stderr p1 ++ (lit "Error: " ++ exc_str e) ++ [10])
           (requests p1) (remote p1))
    | (Exited n, p1) => (Exited n, p1)
    end.
Proof.
  unfold main. cbn [List.length Nat.eqb negb nth].
  unfold try_except, bind at 1.
  destruct (get_transcript video_id p) as [[t|e|n] p1]; try reflexivity.
  change (fun entry => line <- call (json_dumps entry) ;; print line)
    with print_entry.
  rewrite for_each_print.
  destruct (snd (expected_output t)); reflexivity.
Qed.

Lemma run_retrieved (prog video_id : pystr) (w : world) t p1 :
  get_transcript video_id (initial w) = (Normal t, p1) ->
  run [prog; video_id] w =
    match snd (expected_output t) with
    | None =>
        (0, mkProcess (fst (expected_output t)) [] (requests p1) (remote p1))
    | Some e =>
        (1, mkProcess (fst (expected_output t))
              (lit "Error: " ++ exc_str e ++ [10]) (requests p1) (remote p1))
    end.
Proof.
  intros H. unfold run. rewrite main_one_argument, H.
  destruct (get_transcript_cases video_id (initial w)) as (o & rest & w' & E & _).
  rewrite H in E. injection E as _ ->. cbn.
  destruct (snd (expected_output t)); cbn; now rewrite <- ?app_assoc.
Qed.

Lemma run_not_retrieved (prog video_id : pystr) (w : world) e p1 :
  get_transcript video_id (initial w) = (Raised e, p1) ->
  run [prog; video_id] w =
    (1, mkProcess [] (lit "Error: " ++ exc_str e ++ [10])
          (requests p1) (remote p1)).
Proof.
  intros H. unfold run. rewrite main_one_argument, H.
  destruct (get_transcript_cases video_id (initial w)) as (o & rest & w' & E & _).
  rewrite H in E. injection E as _ ->. cbn. now rewrite <- ?app_assoc.
Qed.

Lemma run_wrong_argument_count (argv : list pystr) (w : world) :
  List.length argv <> 2%nat ->
  run argv w = (1, mkProcess [] (usage ++ [10]) [] w).
Proof.
  intros H. unfold run, main.
  destruct (Nat.eqb (List.length argv) 2) eqn:E.
  - apply Nat.eqb_eq in E. contradiction.
  - reflexivity.
Qed.

(** Every run is one of three: wrong argument count, a transcript
    retrieved, or retrieval failed. *)
Lemma run_cases (argv : list pystr) (w : world) :
  (List.length argv <> 2%nat /\ run argv w = (1, mkProcess [] (usage ++ [10]) [] w))
  \/ (exists prog video_id, argv = [prog; video_id] /\
       ((exists t p1, get_transcript video_id (initial w) = (Normal t, p1))
        \/ (exists e p1, get_transcript video_id (initial w) = (Raised e, p1)))).
Proof.
  destruct (Nat.eq_dec (List.length argv) 2) as [E|E].
  - right. destruct argv as [|prog [|video_id [|x argv]]]; try discriminate.
    exists prog, video_id. split; [reflexivity|].
    destruct (get_transcript_cases video_id (initial w))
      as (o & rest & w' & Eg & [[t ->]|[e ->]]); eauto.
  - left. split; [exact E | now apply run_wrong_argument_count].
Qed.

Lemma expected_output_all_printed (t : transcript) :
  snd (expected_output t) = None <->
  Forall (fun entry => exists line, json_dumps entry = Success line) t.
Proof.
  induction t as [|entry t IH]; cbn [expected_output].
  - split; [constructor | reflexivity].
  - destruct (json_dumps entry) as [line|e] eqn:E.
    + destruct (expected_output t) as [out stop]. cbn [snd] in *. split.
      * intros H. constructor; [eauto | now apply IH].
      * intros H. inversion H; subst. now apply IH.
    + cbn [snd]. split; [discriminate|].
      intros H. inversion H as [|? ? [line Hl] _]; subst. congruence.
Qed.

(** The loop prints the entries from the first on, each as its own line,
    and stops only at an entry [json.dumps] rejects. *)
Lemma expected_output_prefix (t : transcript) :
  exists printed rest lines,
    t = printed ++ rest
    /\ Forall2 (fun entry line => json_dumps entry = Success line) printed lines
    /\ fst (expected_output t) = flat_map (fun line => line ++ [10]) lines
    /\ match snd (expected_output t) with
       | None => rest = []
       | Some e => exists entry rest', rest = entry :: rest' /\ json_dumps entry = Failure e
       end.
Proof.
  induction t as [|entry t (printed & rest & lines & Ht & Hl & Ho & Hs)];
    cbn [expected_output].
  - exists [], [], []. repeat split; constructor.
  - destruct (json_dumps entry) as [line|e] eqn:E.
    + exists (entry :: printed), rest, (line :: lines).
      destruct (expected_output t) as [out stop]. cbn [fst snd] in *.
      repeat split.
      * now rewrite Ht.
      * now constructor.
      * cbn [flat_map]. now rewrite Ho, <- app_assoc.
      * exact Hs.
    + exists [], (entry :: t), []. cbn [fst snd]. repeat split; try constructor.
      exists entry, t. now split.
Qed.

(** ** The claims *)

(** C1. [get_transcript] always asks for [en] first; when that request
    raises, it asks for [en-US] then [en-GB]; when that raises too, the
    exception that leaves [get_transcript] is the one of the first
    request, and it is its message that the program prints after
    [Error: ]. *)
Theorem first_error_is_propagated (video_id : pystr) (p : process) :
  (exists rest,
     requests (snd (get_transcript video_id p)) =
       requests p ++ (video_id, [lit "en"]) :: rest)
  /\ (forall e w1,
        provider video_id [lit "en"] (remote p) = (Failure e, w1) ->
        requests (snd (get_transcript video_id p)) =
          requests p ++ [(video_id, [lit "en"]);
                         (video_id, [lit "en-US"; lit "en-GB"])]
        /\ forall e2 w2,
             provider video_id [lit "en-US"; lit "en-GB"] w1 = (Failure e2, w2) ->
             fst (get_transcript video_id p) = Raised e
             /\ forall prog,
                  stderr (snd (run [prog; video_id] (remote p))) =
                    lit "Error: " ++ exc_str e ++ [10]).
Proof.
  split.
  - destruct (get_transcript_cases video_id p) as (o & rest & w & E & _).
    exists rest. now rewrite E.
  - intros e w1 H1. split.
    + destruct (provider video_id en_variants w1) as [[t|e2] w2] eqn:H2.
      * now rewrite (get_transcript_fallback _ _ _ _ _ _ H1 H2).
      * now rewrite (get_transcript_both_fail _ _ _ _ _ _ H1 H2).
    + intros e2 w2 H2. split.
      * now rewrite (get_transcript_both_fail _ _ _ _ _ _ H1 H2).
      * intros prog.
        now rewrite (run_not_retrieved prog _ _ _ _
                       (get_transcript_both_fail video_id (initial (remote p))
                          _ _ _ _ H1 H2)).
Qed.

(** C2. With no argument or with two or more arguments after the program
    name, the program prints the usage line on standard error, exits with
    status 1, writes nothing on standard output and sends no request; a
    request is sent only when there is exactly one argument. *)
Theorem usage_unless_one_argument (prog : pystr) (args : list pystr) (w : world) :
  (List.length args <> 1%nat ->
   run (prog :: args) w =
     (1, mkProcess [] (lit "Usage: python get_transcript.py <video_id>" ++ [10]) [] w))
  /\ (requests (snd (run (prog :: args) w)) <> [] -> List.length args = 1%nat).
Proof.
  assert (H : List.length args <> 1%nat ->
              run (prog :: args) w = (1, mkProcess [] (usage ++ [10]) [] w)).
  { intros H. apply run_wrong_argument_count. cbn [List.length]. lia. }
  split; [exact H|].
  intros Hr. destruct (Nat.eq_dec (List.length args) 1) as [E|E]; [exact E|].
  rewrite (H E) in Hr. now contradiction Hr.
Qed.

(** C4. When both requests raise, the program prints [Error: ] and the
    message of the retrieval error on standard error, exits with status
    1, and standard output stays empty. *)
Theorem retrieval_failure_is_reported
  (prog video_id : pystr) (w : world) e w1 e2 w2 :
  provider video_id [lit "en"] w = (Failure e, w1) ->
  provider video_id [lit "en-US"; lit "en-GB"] w1 = (Failure e2, w2) ->
  run [prog; video_id] w =
    (1, mkProcess [] (lit "Error: " ++ exc_str e ++ [10])
          [(video_id, [lit "en"]); (video_id, [lit "en-US"; lit "en-GB"])] w2).
Proof.
  intros H1 H2.
  exact (run_not_retrieved prog _ _ _ _
           (get_transcript_both_fail video_id (initial w) _ _ _ _ H1 H2)).
Qed.

(** C5. The exit status is 0 or 1 and nothing else: the script either
    runs to its end or leaves through [sys.exit(1)].  It is 1 on a wrong
    argument count and on a retrieval failure, and it is 0 exactly when a
    transcript was retrieved and every entry was printed. *)
Theorem exit_status_is_0_or_1 (argv : list pystr) (w : world) :
  (fst (main argv (initial w)) = Normal tt \/ fst (main argv (initial w)) = Exited 1)
  /\ (fst (run argv w) = 0 \/ fst (run argv w) = 1)
  /\ (List.length argv <> 2%nat -> fst (run argv w) = 1)
  /\ (forall prog video_id e,
        argv = [prog; video_id] ->
        fst (get_transcript video_id (initial w)) = Raised e ->
        fst (run argv w) = 1)
  /\ (fst (run argv w) = 0 <->
      exists prog video_id t,
        argv = [prog; video_id]
        /\ fst (get_transcript video_id (initial w)) = Normal t
        /\ Forall (fun entry => exists line, json_dumps entry = Success line) t).
Proof.
  assert (Hmain : fst (run argv w) = exit_status (fst (main argv (initial w)))).
  { unfold run. now destruct (main argv (initial w)). }
  destruct (run_cases argv w)
    as [[Hlen Hrun]|(prog & video_id & -> & [(t & p1 & Hg)|(e & p1 & Hg)])].
  - repeat split.
    + right. unfold main.
      destruct (Nat.eqb (List.length argv) 2) eqn:E; [|reflexivity].
      apply Nat.eqb_eq in E. contradiction.
    + right. now rewrite Hrun.
    + now rewrite Hrun.
    + intros prog video_id e -> _. now contradiction Hlen.
    + rewrite Hrun. discriminate.
    + intros (prog & video_id & t & -> & _). now contradiction Hlen.
  - pose proof (run_retrieved prog video_id w t p1 Hg) as Hrun.
    pose proof (expected_output_all_printed t) as Hall.
    assert (Hm := main_one_argument prog video_id (initial w)).
    rewrite Hg in Hm.
    destruct (snd (expected_output t)) as [e|]; rewrite Hrun, Hm; cbn [fst].
    + repeat split; auto.
      * discriminate.
      * intros (prog' & video_id' & t' & Ea & Hg' & Hf).
        injection Ea as <- <-. rewrite Hg in Hg'. injection Hg' as <-.
        apply Hall in Hf. discriminate.
    + repeat split; auto.
      * intros Hlen. now contradiction Hlen.
      * intros prog' video_id' e Ea Hg'.
        injection Ea as <- <-. rewrite Hg in Hg'. discriminate.
      * intros _. exists prog, video_id, t. rewrite Hg.
        repeat split. now apply Hall.
  - pose proof (run_not_retrieved prog video_id w e p1 Hg) as Hrun.
    assert (Hm := main_one_argument prog video_id (initial w)).
    rewrite Hg in Hm. rewrite Hrun, Hm. cbn [fst].
    repeat split; auto.
    + discriminate.
    + intros (prog' & video_id' & t' & Ea & Hg' & _).
      injection Ea as <- <-. rewrite Hg in Hg'. discriminate.
Qed.

(** C6. When the request for [en] raises and the request for the
    variants returns a transcript, the program goes through the fallback
    and ends exactly as a run whose request for [en] returns the same
    transcript: same exit status, same standard output, same standard
    error; when every entry can be serialised the status is 0 and the
    output is one line per entry, in order. *)
Theorem fallback_output_same_as_primary
  (prog video_id : pystr) (w w' : world) e w1 t w2 w1' :
  provider video_id [lit "en"] w = (Failure e, w1) ->
  provider video_id [lit "en-US"; lit "en-GB"] w1 = (Success t, w2) ->
  provider video_id [lit "en"] w' = (Success t, w1') ->
  fst (get_transcript video_id (initial w)) = Normal t
  /\ requests (snd (run [prog; video_id] w)) =
       [(video_id, [lit "en"]); (video_id, [lit "en-US"; lit "en-GB"])]
  /\ fst (run [prog; video_id] w) = fst (run [prog; video_id] w')
  /\ stdout (snd (run [prog; video_id] w)) = stdout (snd (run [prog; video_id] w'))
  /\ stderr (snd (run [prog; video_id] w)) = stderr (snd (run [prog; video_id] w'))
  /\ forall lines,
       Forall2 (fun entry line => json_dumps entry = Success line) t lines ->
       fst (run [prog; video_id] w) = 0
       /\ stdout (snd (run [prog; video_id] w)) =
            flat_map (fun line => line ++ [10]) lines.
Proof.
  intros H1 H2 H1'.
  pose proof (get_transcript_fallback video_id (initial w) _ _ _ _ H1 H2) as Hg.
  pose proof (get_transcript_primary video_id (initial w') _ _ H1') as Hg'.
  pose proof (run_retrieved prog _ _ _ _ Hg) as Hr.
  pose proof (run_retrieved prog _ _ _ _ Hg') as Hr'.
  split; [now rewrite Hg|].
  split; [rewrite Hr; now destruct (snd (expected_output t))|].
  split; [rewrite Hr, Hr'; now destruct (snd (expected_output t))|].
  split; [rewrite Hr, Hr'; now destruct (snd (expected_output t))|].
  split; [rewrite Hr, Hr'; now destruct (snd (expected_output t))|].
  intros lines Hl. rewrite Hr.
  assert (Hall : snd (expected_output t) = None).
  { apply expected_output_all_printed.
    clear - Hl. induction Hl; constructor; eauto. }
  rewrite Hall. cbn [fst snd stdout]. split; [reflexivity|].
  destruct (expected_output_prefix t)
    as (printed & rest & lines' & Ht & Hl' & Ho & Hs).
  rewrite Hall in Hs. subst rest. rewrite app_nil_r in Ht. subst printed.
  rewrite Ho. f_equal.
  clear - Hl Hl'. revert lines' Hl'.
  induction Hl as [|entry line t lines Hel _ IH]; intros lines' Hl';
    inversion Hl' as [|? line' ? lines'' Hel' Hl'']; subst; [reflexivity|].
  f_equal; [congruence | now apply IH].
Qed.

(** C7. The program does nothing with the entries of a retrieved
    transcript but serialise and print them in turn: standard output is
    the lines of the entries from the first on, in the provider's order,
    none skipped, up to the end of the transcript or to the first entry
    that [json.dumps] rejects; the requests and the remote side are as the
    retrieval left them, so no entry is kept anywhere; and the loop on its
    own changes nothing of the process but standard output. *)
Theorem entries_only_serialised_and_printed
  (prog video_id : pystr) (w : world) (t : transcript) (p1 : process) :
  get_transcript video_id (initial w) = (Normal t, p1) ->
  (exists printed rest lines,
     t = printed ++ rest
     /\ Forall2 (fun entry line => json_dumps entry = Success line) printed lines
     /\ stdout (snd (run [prog; video_id] w)) =
          flat_map (fun line => line ++ [10]) lines
     /\ (rest = [] \/
         exists entry rest' e,
           rest = entry :: rest' /\ json_dumps entry = Failure e))
  /\ requests (snd (run [prog; video_id] w)) = requests p1
  /\ remote (snd (run [prog; video_id] w)) = remote p1
  /\ forall p,
       let p' := snd (for_each t print_entry p) in
       (exists out, stdout p' = stdout p ++ out)
       /\ stderr p' = stderr p
       /\ requests p' = requests p
       /\ remote p' = remote p.
Proof.
  intros Hg. pose proof (run_retrieved prog _ _ _ _ Hg) as Hr.
  destruct (expected_output_prefix t)
    as (printed & rest & lines & Ht & Hl & Ho & Hs).
  split.
  - exists printed, rest, lines. repeat split; try assumption.
    + rewrite Hr. now destruct (snd (expected_output t)).
    + destruct (snd (expected_output t)) as [e|]; [|now left].
      destruct Hs as (entry & rest' & Hrest & He). right. eauto.
  - split; [rewrite Hr; now destruct (snd (expected_output t))|].
    split; [rewrite Hr; now destruct (snd (expected_output t))|].
    intros p. cbv zeta. rewrite for_each_print. cbn [snd stdout stderr requests remote].
    repeat split. eauto.
Qed.

(** C8. Two runs on the same video identifier in which the provider
    returns the same transcript write the same bytes on standard
    output. *)
Theorem same_transcript_same_stdout
  (prog video_id : pystr) (w1 w2 : world) (t : transcript) :
  fst (get_transcript video_id (initial w1)) = Normal t ->
  fst (get_transcript video_id (initial w2)) = Normal t ->
  stdout (snd (run [prog; video_id] w1)) = stdout (snd (run [prog; video_id] w2)).
Proof.
  intros H1 H2.
  destruct (get_transcript video_id (initial w1)) as [o1 p1] eqn:E1.
  destruct (get_transcript video_id (initial w2)) as [o2 p2] eqn:E2.
  cbn [fst] in H1, H2. subst o1 o2.
  rewrite (run_retrieved prog _ _ _ _ E1), (run_retrieved prog _ _ _ _ E2).
  now destruct (snd (expected_output t)).
Qed.

(** C9. When the provider returns the empty transcript, the program
    writes nothing on standard output, nothing on standard error, and
    exits with status 0. *)
Theorem empty_transcript_is_silent (prog video_id : pystr) (w : world) :
  fst (get_transcript video_id (initial w)) = Normal [] ->
  fst (run [prog; video_id] w) = 0
  /\ stdout (snd (run [prog; video_id] w)) = []
  /\ stderr (snd (run [prog; video_id] w)) = [].
Proof.
  intros H.
  destruct (get_transcript video_id (initial w)) as [o p1] eqn:E.
  cbn [fst] in H. subst o.
  rewrite (run_retrieved prog _ _ _ _ E). cbn. auto.
Qed.

(** ** Beyond the claims: the requests, the streams, a failing entry *)

Lemma get_transcript_requests (video_id : pystr) (p : process) :
  requests (snd (get_transcript video_id p)) = requests p ++ [(video_id, en)]
  \/ requests (snd (get_transcript video_id p)) =
       requests p ++ [(video_id, en); (video_id, en_variants)].
Proof.
  destruct (provider video_id en (remote p)) as [[t|e] w1] eqn:H1.
  - left. now rewrite (get_transcript_primary _ _ _ _ H1).
  - right. destruct (provider video_id en_variants w1) as [[t|e2] w2] eqn:H2.
    + now rewrite (get_transcript_fallback _ _ _ _ _ _ H1 H2).
    + now rewrite (get_transcript_both_fail _ _ _ _ _ _ H1 H2).
Qed.

(** The process a run on one argument ends in has the requests and the
    remote side that [get_transcript] left. *)
Lemma run_requests (prog video_id : pystr) (w : world) :
  requests (snd (run [prog; video_id] w)) =
    requests (snd (get_transcript video_id (initial w)))
  /\ remote (snd (run [prog; video_id] w)) =
       remote (snd (get_transcript video_id (initial w))).
Proof.
  destruct (get_transcript_cases video_id (initial w))
    as (o & rest & w' & E & [[t ->]|[e ->]]).
  - rewrite (run_retrieved prog _ _ _ _ E), E.
    now destruct (snd (expected_output t)).
  - now rewrite (run_not_retrieved prog _ _ _ _ E), E.
Qed.

Lemma expected_output_stops (printed : transcript) (lines : list pystr)
  (bad : pyval) (rest : transcript) (e : exception) :
  Forall2 (fun entry line => json_dumps entry = Success line) printed lines ->
  json_dumps bad = Failure e ->
  expected_output (printed ++ bad :: rest) =
    (flat_map (fun line => line ++ [10]) lines, Some e).
Proof.
  intros Hl Hbad. induction Hl as [|entry line printed lines Hel _ IH];
    cbn [app expected_output flat_map].
  - now rewrite Hbad.
  - rewrite Hel, IH. now rewrite <- app_assoc.
Qed.

(** X1. When the request for [en] returns a transcript, that transcript
    is the result, and the variants are never asked for: the request for
    [en] is the only one sent, and the remote side is as that request
    left it. *)
Theorem primary_success_skips_fallback
  (prog video_id : pystr) (w : world) (t : transcript) (w1 : world) :
  provider video_id [lit "en"] w = (Success t, w1) ->
  get_transcript video_id (initial w) =
    (Normal t, mkProcess [] [] [(video_id, [lit "en"])] w1)
  /\ requests (snd (run [prog; video_id] w)) = [(video_id, [lit "en"])]
  /\ remote (snd (run [prog; video_id] w)) = w1.
Proof.
  intros H1.
  pose proof (get_transcript_primary video_id (initial w) t w1 H1) as Hg.
  cbn [initial stdout stderr requests app] in Hg.
  destruct (run_requests prog video_id w) as [Hq Hr].
  rewrite Hg in Hq, Hr. repeat split; assumption.
Qed.

(** X2. Whatever the arguments and the provider's answers, a run sends
    at most two requests, each for [sys.argv[1]] as it was given and for
    one of the two language lists of the source; with one argument the
    first request, for [en], is always sent, whatever the argument is. *)
Theorem requests_name_only_the_argument (argv : list pystr) (w : world) :
  (List.length (requests (snd (run argv w))) <= 2)%nat
  /\ Forall (fun request =>
               fst request = nth 1 argv []
               /\ (snd request = [lit "en"]
                   \/ snd request = [lit "en-US"; lit "en-GB"]))
       (requests (snd (run argv w)))
  /\ (List.length argv = 2%nat ->
       exists rest,
         requests (snd (run argv w)) = (nth 1 argv [], [lit "en"]) :: rest).
Proof.
  destruct (Nat.eq_dec (List.length argv) 2) as [E|E].
  - destruct argv as [|prog [|video_id [|x argv]]]; try discriminate.
    cbn [nth]. rewrite (proj1 (run_requests prog video_id w)).
    destruct (get_transcript_requests video_id (initial w)) as [-> | ->];
      cbn [initial requests app List.length fst snd].
    + split; [lia|]. split; [|eauto].
      constructor; [|constructor]. cbn [fst snd]. auto.
    + split; [lia|]. split; [|eauto].
      constructor; [|constructor; [|constructor]]; cbn [fst snd]; auto.
  - rewrite (run_wrong_argument_count argv w E). cbn [snd requests List.length].
    split; [lia|]. split; [constructor|]. intros H. contradiction.
Qed.

(** X3. [get_transcript] writes nothing on standard output or standard
    error and never leaves through [sys.exit]: it returns a transcript or
    raises, and reporting is left to its caller. *)
Theorem get_transcript_is_quiet (video_id : pystr) (p : process) :
  stdout (snd (get_transcript video_id p)) = stdout p
  /\ stderr (snd (get_transcript video_id p)) = stderr p
  /\ ((exists t, fst (get_transcript video_id p) = Normal t)
      \/ (exists e, fst (get_transcript video_id p) = Raised e)).
Proof.
  destruct (get_transcript_cases video_id p) as (o & rest & w & E & Ho).
  rewrite E. cbn [fst snd stdout stderr]. repeat split.
  destruct Ho as [[t ->]|[e ->]]; eauto.
Qed.

(** X4. The [try] block of the main program covers the print loop too:
    when [json.dumps] raises on an entry, the entries before it have
    already been printed and stay on standard output, the message of that
    exception goes to standard error after [Error: ], the status is 1, and
    the entries after it have no effect at all. *)
Theorem unserialisable_entry_stops_the_output
  (prog video_id : pystr) (w : world) (p1 : process)
  (printed : transcript) (lines : list pystr) (bad : pyval)
  (rest : transcript) (e : exception) :
  get_transcript video_id (initial w) = (Normal (printed ++ bad :: rest), p1) ->
  Forall2 (fun entry line => json_dumps entry = Success line) printed lines ->
  json_dumps bad = Failure e ->
  run [prog; video_id] w =
    (1, mkProcess (flat_map (fun line => line ++ [10]) lines)
          (lit "Error: " ++ exc_str e ++ [10]) (requests p1) (remote p1)).
Proof.
  intros Hg Hl Hbad.
  rewrite (run_retrieved prog _ _ _ _ Hg).
  now rewrite (expected_output_stops printed lines bad rest e Hl Hbad).
Qed.

(** X5. Standard error is empty exactly when the exit status is 0: every
    failing run says why (the usage line or an [Error: ] line), and a
    successful run says nothing there. *)
Theorem stderr_empty_iff_success (argv : list pystr) (w : world) :
  fst (run argv w) = 0 <-> stderr (snd (run argv w)) = [].
Proof.
  destruct (run_cases argv w)
    as [[_ ->]|(prog & video_id & -> & [(t & p1 & Hg)|(e & p1 & Hg)])].
  - cbn. split; discriminate.
  - rewrite (run_retrieved prog _ _ _ _ Hg).
    destruct (snd (expected_output t)); cbn; split; try discriminate; reflexivity.
  - rewrite (run_not_retrieved prog _ _ _ _ Hg). cbn. split; discriminate.
Qed.

(** ** The encoder writes printable ASCII only *)

Lemma pyval_ind (P : pyval -> Prop) :
  (forall s, P (PStr s)) ->
  P PNone ->
  (forall b, P (PBool b)) ->
  (forall n, P (PInt n)) ->
  (forall x, P (PFloat x)) ->
  (forall lst, Forall P lst -> P (PList lst)) ->
  (forall dct, Forall (fun item => P (snd item)) dct -> P (PDict dct)) ->
  (forall class_name, P (PObject class_name)) ->
  forall o, P o.
Proof.
  intros HStr HNone HBool HInt HFloat HList HDict HObject.
  fix IH 1. intros [s| |b|n|x|lst|dct|class_name].
  - apply HStr.
  - exact HNone.
  - apply HBool.
  - apply HInt.
  - apply HFloat.
  - apply HList. induction lst as [|v lst IHlst]; constructor.
    + apply IH.
    + exact IHlst.
  - apply HDict. induction dct as [|[k v] dct IHdct]; constructor.
    + apply IH.
    + exact IHdct.
  - apply HObject.
Qed.

Lemma printable_lit_digits : Forall printable (lit "0123456789abcdef").
Proof. unfold printable. repeat constructor; cbn; lia. Qed.

Lemma hexdigit_printable (d : Z) : printable (hexdigit d).
Proof.
  unfold hexdigit.
  destruct (nth_in_or_default (Z.to_nat d) (lit "0123456789abcdef") 48) as [H|H].
  - exact (proj1 (Forall_forall _ _) printable_lit_digits _ H).
  - rewrite H. unfold printable. lia.
Qed.

Lemma format_04x_printable (n : Z) : Forall printable (format_04x n).
Proof. unfold format_04x. repeat constructor; apply hexdigit_printable. Qed.

Lemma replace_printable (c : Z) : Forall printable (replace c).
Proof.
  unfold replace, ESCAPE_DCT.
  repeat match goal with
         | |- context [if ?b then _ else _] => destruct b
         end;
    repeat (apply Forall_app; split);
    try apply format_04x_printable;
    unfold printable; repeat constructor; cbn; lia.
Qed.

Lemma escape_sub_printable (s : pystr) : Forall printable (escape_sub s).
Proof.
  unfold escape_sub. induction s as [|c s IH]; cbn [flat_map].
  - constructor.
  - apply Forall_app. split; [|exact IH].
    destruct (ESCAPE_ASCII c) eqn:E.
    + apply replace_printable.
    + constructor; [|constructor].
      unfold ESCAPE_ASCII in E. unfold printable. lia.
Qed.

Lemma py_encode_basestring_ascii_printable (s : pystr) :
  Forall printable (py_encode_basestring_ascii s).
Proof.
  unfold py_encode_basestring_ascii. constructor; [unfold printable; lia|].
  apply Forall_app. split; [apply escape_sub_printable|].
  constructor; [unfold printable; lia | constructor].
Qed.

Lemma uint_digits_printable (d : Decimal.uint) : Forall printable (uint_digits d).
Proof.
  induction d; cbn [uint_digits]; constructor; auto; unfold printable; lia.
Qed.

Lemma int_repr_printable (n : Z) : Forall printable (int_repr n).
Proof.
  unfold int_repr. destruct (Z.to_int n).
  - apply uint_digits_printable.
  - constructor; [unfold printable; lia | apply uint_digits_printable].
Qed.

Lemma join_printable (sep : pystr) (chunks : list pystr) :
  Forall printable sep ->
  Forall (Forall printable) chunks ->
  Forall printable (join sep chunks).
Proof.
  intros Hsep Hchunks. destruct Hchunks as [|c cs Hc Hcs]; cbn [join].
  - constructor.
  - apply Forall_app. split; [exact Hc|].
    induction Hcs as [|c' cs' Hc' _ IH]; cbn [flat_map].
    + constructor.
    + repeat (apply Forall_app; split); assumption.
Qed.

Lemma encode_items_Forall {A : Type} (f : A -> result pystr) (Q : pystr -> Prop)
  (l : list A) :
  Forall (fun x => forall chunk, f x = Success chunk -> Q chunk) l ->
  forall chunks, encode_items f l = Success chunks -> Forall Q chunks.
Proof.
  induction 1 as [|x l Hx _ IH]; cbn [encode_items]; intros chunks E.
  - injection E as <-. constructor.
  - destruct (f x) as [chunk|e]; [|discriminate].
    destruct (encode_items f l) as [chunks'|e]; [|discriminate].
    injection E as <-. constructor; auto.
Qed.

(** ** Entries [json.dumps] cannot accept *)

Lemma encode_items_success {A : Type} (f : A -> result pystr) (l : list A) :
  forall chunks,
    encode_items f l = Success chunks ->
    Forall (fun x => exists chunk, f x = Success chunk) l.
Proof.
  induction l as [|x l IH]; cbn [encode_items]; intros chunks E.
  - constructor.
  - destruct (f x) as [chunk|e] eqn:Ex; [|discriminate].
    destruct (encode_items f l) as [chunks'|e]; [|discriminate].
    constructor; [eauto | eapply IH; reflexivity].
Qed.

Lemma iterencode_success (o : pyval) :
  forall line, iterencode o = Success line -> serialisable o = true.
Proof.
  induction o as [s0| |b|n|x|lst IH|dct IH|class_name] using pyval_ind;
    intros line E; cbn [iterencode serialisable] in *;
    try reflexivity.
  - apply forallb_forall. apply Forall_forall.
    destruct lst as [|v lst]; [constructor|].
    destruct (encode_items iterencode (v :: lst)) as [chunks|e] eqn:Ei;
      [|discriminate].
    apply encode_items_success in Ei.
    eapply Forall_impl; [|exact (Forall_and Ei IH)].
    intros a [[chunk Ha] Himp]. exact (Himp chunk Ha).
  - apply forallb_forall. apply Forall_forall.
    destruct dct as [|item dct]; [constructor|].
    match type of E with
    | match encode_items ?f ?l with _ => _ end = _ =>
        destruct (encode_items f l) as [chunks|e] eqn:Ei; [|discriminate]
    end.
    apply encode_items_success in Ei.
    eapply Forall_impl; [|exact (Forall_and Ei IH)].
    intros [key value] [[chunk Hc] Himp]. cbn [snd] in Himp.
    destruct (encode_key key) as [k|e] eqn:Ek; [|discriminate].
    destruct (iterencode value) as [c|e] eqn:Ev; [|discriminate].
    apply andb_true_intro. split.
    + destruct key; try reflexivity. discriminate.
    + exact (Himp c eq_refl).
  - discriminate.
Qed.

Lemma expected_output_stopped (t : transcript) :
  forallb serialisable t = false ->
  exists e, snd (expected_output t) = Some e.
Proof.
  intros H. destruct (snd (expected_output t)) as [e|] eqn:E; [eauto|].
  apply expected_output_all_printed in E.
  assert (Hall : forallb serialisable t = true).
  { apply forallb_forall. apply Forall_forall.
    eapply Forall_impl; [|exact E].
    intros a [line Ha]. exact (iterencode_success a line Ha). }
  congruence.
Qed.

(** X6. [json.dumps] raises on every value that holds, at any depth, an
    object of a class other than str, int, float, bool, [None], list,
    tuple and dict, or a dict key of a class other than the first five:
    such a value is never serialised. *)
Theorem json_dumps_rejects_foreign_objects (o : pyval) :
  serialisable o = false -> exists e, json_dumps o = Failure e.
Proof.
  intros H. unfold json_dumps. destruct (iterencode o) as [line|e] eqn:E.
  - apply iterencode_success in E. congruence.
  - eauto.
Qed.

(** X7. A retrieved transcript with such an object in any of its entries
    never gives a successful run: the exit status is 1 and standard error
    holds an [Error: ] line. *)
Theorem foreign_object_fails_the_run
  (prog video_id : pystr) (w : world) (t : transcript) (p1 : process) :
  get_transcript video_id (initial w) = (Normal t, p1) ->
  forallb serialisable t = false ->
  fst (run [prog; video_id] w) = 1
  /\ exists e,
       stderr (snd (run [prog; video_id] w)) = lit "Error: " ++ exc_str e ++ [10].
Proof.
  intros Hg H. rewrite (run_retrieved prog _ _ _ _ Hg).
  destruct (expected_output_stopped t H) as [e ->]. cbn [fst snd stderr].
  split; [reflexivity | eauto].
Qed.

(** ** Escaping loses nothing *)

Lemma hexval_hexdigit (d : Z) : 0 <= d < 16 -> hexval (hexdigit d) = d.
Proof.
  intros H.
  assert (D : d = 0 \/ d = 1 \/ d = 2 \/ d = 3 \/ d = 4 \/ d = 5 \/ d = 6 \/ d = 7
              \/ d = 8 \/ d = 9 \/ d = 10 \/ d = 11 \/ d = 12 \/ d = 13 \/ d = 14
              \/ d = 15) by lia.
  repeat (destruct D as [->|D]; [reflexivity|]). subst. reflexivity.
Qed.

Lemma read_04x_format (n : Z) :
  0 <= n < 65536 ->
  exists a b c d, format_04x n = [a; b; c; d] /\ read_04x a b c d = n.
Proof.
  clear float_repr world provider.
  intros H. unfold format_04x. do 4 eexists. split; [reflexivity|].
  unfold read_04x.
  change 15 with (Z.ones 4). rewrite !Z.land_ones, !Z.shiftr_div_pow2 by lia.
  change (2^12) with 4096. change (2^8) with 256. change (2^4) with 16.
  rewrite !hexval_hexdigit.
  - Z.to_euclidean_division_equations. lia.
  - Z.to_euclidean_division_equations. lia.
  - Z.to_euclidean_division_equations. lia.
  - Z.to_euclidean_division_equations. lia.
  - Z.to_euclidean_division_equations. lia.
Qed.

Lemma lor_surrogate (base y : Z) :
  Z.land base 1023 = 0 ->
  Z.lor base (Z.land y 1023) = base + Z.land y 1023.
Proof.
  intros H. pose proof (Z.add_lor_land base (Z.land y 1023)) as E.
  assert (Z : Z.land base (Z.land y 1023) = 0).
  { rewrite (Z.land_comm y), Z.land_assoc, H. apply Z.land_0_l. }
  lia.
Qed.

Lemma unescape_head_u (n : Z) (r : pystr) :
  0 <= n < 65536 ->
  unescape_head (lit "\u" ++ format_04x n ++ r) =
    if (55296 <=? n) && (n <=? 56319) then
      match r with
      | _ :: _ :: a' :: b' :: c' :: d' :: r' =>
          Some (65536 + (n - 55296) * 1024 + (read_04x a' b' c' d' - 56320), r')
      | _ => None
      end
    else Some (n, r).
Proof.
  intros H. destruct (read_04x_format n H) as (a & b & c & d & -> & E).
  change (lit "\u" ++ [a; b; c; d] ++ r) with (92 :: 117 :: a :: b :: c :: d :: r).
  unfold unescape_head. rewrite E. reflexivity.
Qed.

Lemma unescape_head_token (c : Z) (r : pystr) :
  scalar_value c -> unescape_head (token c ++ r) = Some (c, r).
Proof.
  clear float_repr world provider.
  intros [Hrange Hsur].
  destruct (Z.eq_dec c 92) as [->|]; [reflexivity|].
  destruct (Z.eq_dec c 34) as [->|]; [reflexivity|].
  destruct (Z.eq_dec c 8) as [->|]; [reflexivity|].
  destruct (Z.eq_dec c 12) as [->|]; [reflexivity|].
  destruct (Z.eq_dec c 10) as [->|]; [reflexivity|].
  destruct (Z.eq_dec c 13) as [->|]; [reflexivity|].
  destruct (Z.eq_dec c 9) as [->|]; [reflexivity|].
  unfold token, ESCAPE_ASCII, replace, ESCAPE_DCT.
  repeat match goal with
         | |- context [c =? ?b] => destruct (Z.eqb_spec c b); [lia|]
         end.
  cbn [orb].
  destruct (Z.leb_spec 32 c), (Z.leb_spec c 126); cbn [andb negb].
  - cbn [app]. unfold unescape_head.
    destruct (Z.eqb_spec c 92); [lia | reflexivity].
  - destruct (Z.leb_spec 0 c); [|lia]. destruct (Z.ltb_spec c 32); [lia|].
    cbn [andb]. destruct (Z.ltb_spec c 65536).
    + rewrite <- app_assoc, unescape_head_u by lia.
      destruct (Z.leb_spec 55296 c), (Z.leb_spec c 56319); cbn [andb];
        try reflexivity; lia.
    + remember (c - 65536) as m eqn:Em.
      assert (Hm : 0 <= m < 1048576) by lia.
      rewrite !lor_surrogate by reflexivity.
      assert (Hhi : 0 <= Z.land (Z.shiftr m 10) 1023 < 1024).
      { change 1023 with (Z.ones 10). rewrite Z.land_ones by lia.
        apply Z.mod_pos_bound. reflexivity. }
      assert (Hlo : 0 <= Z.land m 1023 < 1024).
      { change 1023 with (Z.ones 10). rewrite Z.land_ones by lia.
        apply Z.mod_pos_bound. reflexivity. }
      assert (Hsum : Z.land (Z.shiftr m 10) 1023 * 1024 + Z.land m 1023 = m).
      { change 1023 with (Z.ones 10).
        rewrite !Z.land_ones, Z.shiftr_div_pow2 by lia.
        change (2 ^ 10) with 1024. Z.to_euclidean_division_equations. lia. }
      remember (Z.land (Z.shiftr m 10) 1023) as hi.
      remember (Z.land m 1023) as lo.
      rewrite <- !app_assoc, unescape_head_u by lia.
      destruct (Z.leb_spec 55296 (55296 + hi)); [|lia].
      destruct (Z.leb_spec (55296 + hi) 56319); [|lia].
      cbn [andb].
      destruct (read_04x_format (56320 + lo)) as (a & b & c' & d & -> & E);
        [lia|].
      cbn [lit list_ascii_of_string map app]. rewrite E.
      do 2 f_equal. lia.
  - destruct (Z.leb_spec 0 c); [|lia]. destruct (Z.ltb_spec c 32); [|lia].
    cbn [andb]. rewrite <- app_assoc, unescape_head_u by lia.
    destruct (Z.leb_spec 55296 c), (Z.leb_spec c 56319); cbn [andb];
        try reflexivity; lia.
  - lia.
Qed.

Lemma token_head (c : Z) : exists h t, token c = h :: t /\ h <> 34.
Proof.
  unfold token. destruct (ESCAPE_ASCII c) eqn:E.
  - unfold replace, ESCAPE_DCT.
    repeat match goal with
           | |- context [if ?b then _ else _] => destruct b
           end;
      (eexists; eexists; split; [reflexivity | cbn; lia]).
  - exists c, []. split; [reflexivity|].
    unfold ESCAPE_ASCII in E. lia.
Qed.

(** What one character becomes: itself, a [\uXXXX] escape with the four
    hexadecimal digits of its code point, or the two escapes of its
    UTF-16 surrogate pair. *)
Lemma token_plain (c : Z) :
  32 <= c <= 126 -> c <> 34 -> c <> 92 -> token c = [c].
Proof.
  intros H H34 H92. unfold token, ESCAPE_ASCII.
  destruct (Z.eqb_spec c 92); [lia|]. destruct (Z.eqb_spec c 34); [lia|].
  destruct (Z.leb_spec 32 c); [|lia]. destruct (Z.leb_spec c 126); [|lia].
  reflexivity.
Qed.

Lemma token_bmp (c : Z) :
  126 < c < 65536 -> token c = lit "\u" ++ format_04x c.
Proof.
  intros H. unfold token, ESCAPE_ASCII, replace, ESCAPE_DCT.
  repeat match goal with
         | |- context [c =? ?b] => destruct (Z.eqb_spec c b); [lia|]
         end.
  destruct (Z.leb_spec c 126); [lia|]. destruct (Z.ltb_spec c 32); [lia|].
  destruct (Z.ltb_spec c 65536); [|lia].
  rewrite !andb_false_r. reflexivity.
Qed.

Lemma token_astral (c : Z) :
  65536 <= c <= 1114111 ->
  token c = lit "\u" ++ format_04x (55296 + (c - 65536) / 1024)
            ++ lit "\u" ++ format_04x (56320 + (c - 65536) mod 1024).
Proof.
  clear float_repr world provider.
  intros H. unfold token, ESCAPE_ASCII, replace, ESCAPE_DCT.
  repeat match goal with
         | |- context [c =? ?b] => destruct (Z.eqb_spec c b); [lia|]
         end.
  destruct (Z.leb_spec c 126); [lia|]. destruct (Z.ltb_spec c 32); [lia|].
  destruct (Z.ltb_spec c 65536); [lia|].
  rewrite !andb_false_r. cbn [orb negb].
  rewrite !lor_surrogate by reflexivity.
  change 1023 with (Z.ones 10).
  rewrite !Z.land_ones, Z.shiftr_div_pow2 by lia.
  change (2 ^ 10) with 1024.
  rewrite (Z.mod_small ((c - 65536) / 1024) 1024)
    by (Z.to_euclidean_division_equations; lia).
  reflexivity.
Qed.

Lemma format_04x_digits (n : Z) :
  Forall (fun d => In d (lit "0123456789abcdef")) (format_04x n).
Proof.
  assert (H : forall d, 0 <= d < 16 -> In (hexdigit d) (lit "0123456789abcdef")).
  { intros d Hd. unfold hexdigit. apply nth_In. cbn. lia. }
  assert (B : forall x, 0 <= Z.land x 15 < 16).
  { intros x. change 15 with (Z.ones 4). rewrite Z.land_ones by lia.
    apply Z.mod_pos_bound. reflexivity. }
  unfold format_04x. repeat (apply Forall_cons; [apply H, B|]). apply Forall_nil.
Qed.

Lemma escape_sub_cons (c : Z) (s : pystr) :
  escape_sub (c :: s) = token c ++ escape_sub s.
Proof. reflexivity. Qed.

Lemma escape_sub_cancel (s : pystr) :
  forall s' r r',
    Forall scalar_value s -> Forall scalar_value s' ->
    escape_sub s ++ 34 :: r = escape_sub s' ++ 34 :: r' ->
    s = s' /\ r = r'.
Proof.
  induction s as [|c s IH]; intros [|c' s'] r r' Hs Hs' E.
  - cbn in E. injection E as <-. auto.
  - rewrite escape_sub_cons in E.
    destruct (token_head c') as (h & t & Et & Hh). rewrite Et in E. cbn in E.
    injection E as E _. congruence.
  - rewrite escape_sub_cons in E.
    destruct (token_head c) as (h & t & Et & Hh). rewrite Et in E. cbn in E.
    injection E as E _. congruence.
  - rewrite !escape_sub_cons, <- !app_assoc in E.
    inversion Hs as [|? ? Hc Hs1]; inversion Hs' as [|? ? Hc' Hs1']; subst.
    apply (f_equal unescape_head) in E.
    rewrite !unescape_head_token in E by assumption.
    injection E as -> E.
    destruct (IH _ _ _ Hs1 Hs1' E) as [-> ->]. auto.
Qed.

Lemma py_encode_basestring_ascii_cancel (s s' r r' : pystr) :
  Forall scalar_value s -> Forall scalar_value s' ->
  py_encode_basestring_ascii s ++ r = py_encode_basestring_ascii s' ++ r' ->
  s = s' /\ r = r'.
Proof.
  intros Hs Hs' E. unfold py_encode_basestring_ascii in E.
  cbn [app] in E. injection E as E.
  rewrite <- !app_assoc in E. cbn [app] in E.
  exact (escape_sub_cancel s s' r r' Hs Hs' E).
Qed.

(** X9. The string literal written for a text is lossless and marks its
    own end: if the literals of two texts without surrogate code points,
    each followed by anything, give the same characters, then the texts
    are equal and so is what follows them. *)
Theorem text_literal_is_self_delimiting (s s' r r' : pystr) :
  Forall scalar_value s -> Forall scalar_value s' ->
  py_encode_basestring_ascii s ++ r = py_encode_basestring_ascii s' ++ r' ->
  s = s' /\ r = r'.
Proof. apply py_encode_basestring_ascii_cancel. Qed.

Section PrintableFloats.

(** [float.__repr__] writes digits, a sign, a point and an exponent. *)
Hypothesis float_repr_printable : forall x, Forall printable (float_repr x).

Lemma floatstr_printable (x : spec_float) : Forall printable (floatstr x).
Proof.
  unfold floatstr. destruct x as [s|[|]| |s m e];
    try apply float_repr_printable;
    unfold printable; repeat constructor; cbn; lia.
Qed.

Lemma encode_key_printable (key : pykey) (k : pystr) :
  encode_key key = Success k ->
  Forall printable (py_encode_basestring_ascii k).
Proof. intros _. apply py_encode_basestring_ascii_printable. Qed.

Lemma iterencode_printable (o : pyval) :
  forall s, iterencode o = Success s -> Forall printable s.
Proof.
  induction o as [s0| |b|n|x|lst IH|dct IH|class_name] using pyval_ind;
    intros s E; cbn [iterencode] in E.
  - injection E as <-. apply py_encode_basestring_ascii_printable.
  - injection E as <-. unfold printable; repeat constructor; cbn; lia.
  - destruct b; injection E as <-; unfold printable; repeat constructor; cbn; lia.
  - injection E as <-. apply int_repr_printable.
  - injection E as <-. apply floatstr_printable.
  - destruct lst as [|v lst].
    + injection E as <-. unfold printable; repeat constructor; cbn; lia.
    + destruct (encode_items iterencode (v :: lst)) as [chunks|e] eqn:Ei;
        [|discriminate].
      injection E as <-.
      constructor; [literal|].
      apply Forall_app; split; [|literal].
      apply join_printable.
      * literal.
      * eapply encode_items_Forall; [|exact Ei]. exact IH.
  - destruct dct as [|item dct].
    + injection E as <-. unfold printable; repeat constructor; cbn; lia.
    + match type of E with
      | match encode_items ?f ?l with _ => _ end = _ =>
          destruct (encode_items f l) as [chunks|e] eqn:Ei; [|discriminate]
      end.
      injection E as <-.
      constructor; [literal|].
      apply Forall_app; split; [|literal].
      apply join_printable.
      * literal.
      * eapply encode_items_Forall; [|exact Ei].
        eapply Forall_impl; [|exact IH].
        intros [key value] Hvalue chunk Ec. cbn [snd] in Hvalue.
        destruct (encode_key key) as [k|e]; [|discriminate].
        destruct (iterencode value) as [c|e] eqn:Ev; [|discriminate].
        injection Ec as <-.
        change (Forall printable (py_encode_basestring_ascii k ++ lit ": " ++ c)).
        repeat (apply Forall_app; split).
        -- apply py_encode_basestring_ascii_printable.
        -- literal.
        -- now apply Hvalue.
  - discriminate.
Qed.

Lemma expected_output_printable_or_newline (t : transcript) :
  Forall (fun c => printable c \/ c = 10) (fst (expected_output t)).
Proof.
  induction t as [|entry t IH]; cbn [expected_output].
  - constructor.
  - destruct (json_dumps entry) as [line|e] eqn:E; [|constructor].
    destruct (expected_output t) as [out stop]. cbn [fst] in *.
    apply Forall_app. split.
    + eapply Forall_impl; [|exact (iterencode_printable entry line E)]. tauto.
    + constructor; [tauto | exact IH].
Qed.

Lemma json_dumps_entry_dict (k_text k_start k_duration : pystr) (e : entry) :
  json_dumps (entry_dict k_text k_start k_duration e) =
    Success (json_object_line k_text k_start k_duration e).
Proof.
  unfold json_dumps, entry_dict, json_object_line.
  cbn [iterencode encode_items encode_key join flat_map].
  f_equal. cbn [lit list_ascii_of_string map app].
  rewrite !app_nil_r. repeat (rewrite <- app_assoc; cbn [app]). reflexivity.
Qed.

Lemma expected_output_entries (k_text k_start k_duration : pystr) (entries : list entry) :
  expected_output (map (entry_dict k_text k_start k_duration) entries) =
    (flat_map (fun e => json_object_line k_text k_start k_duration e ++ [10]) entries,
     None).
Proof.
  induction entries as [|e entries IH]; cbn [map expected_output flat_map].
  - reflexivity.
  - rewrite json_dumps_entry_dict, IH. now rewrite <- app_assoc.
Qed.

Lemma printable_not_newline (s : pystr) : Forall printable s -> ~ In 10 s.
Proof.
  intros H Hin. apply (proj1 (Forall_forall _ _) H) in Hin.
  unfold printable in Hin. lia.
Qed.

Lemma unescaped_verbatim (k : pystr) :
  Forall (fun c => ESCAPE_ASCII c = false) k ->
  py_encode_basestring_ascii k = 34 :: k ++ [34].
Proof.
  intros H. unfold py_encode_basestring_ascii. do 2 f_equal.
  unfold escape_sub. induction H as [|c k Hc _ IH]; cbn [flat_map].
  - reflexivity.
  - now rewrite Hc, IH.
Qed.

(** C3. When the retrieved transcript is a list of the provider's
    entries, the run succeeds and standard output is one line per entry,
    in the provider's order; each line is the JSON object of its entry,
    with the text, the start time and the duration under the provider's
    field names (verbatim between double quotes when they need no
    escape), and no line has a line break inside. *)
Theorem one_json_object_per_entry
  (k_text k_start k_duration prog video_id : pystr) (w : world)
  (entries : list entry) :
  fst (get_transcript video_id (initial w)) =
    Normal (map (entry_dict k_text k_start k_duration) entries) ->
  fst (run [prog; video_id] w) = 0
  /\ stdout (snd (run [prog; video_id] w)) =
       flat_map (fun e => json_object_line k_text k_start k_duration e ++ [10])
         entries
  /\ stderr (snd (run [prog; video_id] w)) = []
  /\ Forall (fun e => ~ In 10 (json_object_line k_text k_start k_duration e))
       entries
  /\ (forall k, Forall (fun c => ESCAPE_ASCII c = false) k ->
                py_encode_basestring_ascii k = 34 :: k ++ [34]).
Proof.
  intros H.
  destruct (get_transcript video_id (initial w)) as [o p1] eqn:E.
  cbn [fst] in H. subst o.
  rewrite (run_retrieved prog _ _ _ _ E), expected_output_entries.
  cbn [fst snd stdout stderr].
  repeat split.
  - apply Forall_forall. intros e _. apply printable_not_newline.
    apply (iterencode_printable (entry_dict k_text k_start k_duration e)).
    apply json_dumps_entry_dict.
  - apply unescaped_verbatim.
Qed.

(** C10. Standard output holds ASCII characters only, whatever the
    arguments and the provider's answers, and the text of every entry
    reaches it character by character through the encoder: a character
    from space to tilde other than the quote and the backslash as itself,
    and a character beyond the tilde as a [\uXXXX] escape, where XXXX are
    the four hexadecimal digits of its code point (two such escapes, for
    the two units of its UTF-16 surrogate pair, beyond the basic
    plane). *)
Theorem stdout_is_ascii (argv : list pystr) (w : world) :
  Forall is_ascii (stdout (snd (run argv w)))
  /\ (forall entry line,
        json_dumps entry = Success line -> Forall is_ascii line)
  /\ (forall c, 126 < c ->
        escape_sub [c] =
          if c <? 65536 then lit "\u" ++ format_04x c
          else lit "\u"
               ++ format_04x (Z.lor 55296 (Z.land (Z.shiftr (c - 65536) 10) 1023))
               ++ lit "\u"
               ++ format_04x (Z.lor 56320 (Z.land (c - 65536) 1023)))
  /\ (forall k_text k_start k_duration prog video_id w0 entries,
        fst (get_transcript video_id (initial w0)) =
          Normal (map (entry_dict k_text k_start k_duration) entries) ->
        stdout (snd (run [prog; video_id] w0)) =
          flat_map
            (fun e =>
               (lit "{" ++ py_encode_basestring_ascii k_text ++ lit ": "
                  ++ ([34] ++ flat_map token (text e) ++ [34]) ++ lit ", "
                  ++ py_encode_basestring_ascii k_start ++ lit ": "
                  ++ floatstr (start_time e) ++ lit ", "
                  ++ py_encode_basestring_ascii k_duration ++ lit ": "
                  ++ floatstr (duration e) ++ lit "}") ++ [10])
            entries)
  /\ (forall s,
        json_dumps (PStr s) = Success ([34] ++ flat_map token s ++ [34]))
  /\ (forall c, 32 <= c <= 126 -> c <> 34 -> c <> 92 -> token c = [c])
  /\ (forall c, 126 < c < 65536 ->
        token c = lit "\u" ++ format_04x c
        /\ Forall (fun d => In d (lit "0123456789abcdef")) (format_04x c)
        /\ exists d3 d2 d1 d0,
             format_04x c = [d3; d2; d1; d0]
             /\ 4096 * hexval d3 + 256 * hexval d2 + 16 * hexval d1 + hexval d0 = c)
  /\ (forall c, 65536 <= c <= 1114111 ->
        token c =
          lit "\u" ++ format_04x (55296 + (c - 65536) / 1024)
          ++ lit "\u" ++ format_04x (56320 + (c - 65536) mod 1024)).
Proof.
  assert (Hout : forall t, Forall is_ascii (fst (expected_output t))).
  { intros t. eapply Forall_impl; [|apply expected_output_printable_or_newline].
    unfold printable, is_ascii. lia. }
  split; [|split; [|split; [|split; [|split; [|split; [|split]]]]]].
  - destruct (run_cases argv w)
      as [[_ ->]|(prog & video_id & -> & [(t & p1 & Hg)|(e & p1 & Hg)])].
    + constructor.
    + rewrite (run_retrieved prog _ _ _ _ Hg).
      destruct (snd (expected_output t)); apply Hout.
    + rewrite (run_not_retrieved prog _ _ _ _ Hg). constructor.
  - intros entry line E. eapply Forall_impl; [|exact (iterencode_printable _ _ E)].
    unfold printable, is_ascii. lia.
  - intros c Hc. unfold escape_sub, ESCAPE_ASCII, replace, ESCAPE_DCT.
    cbn [flat_map]. rewrite app_nil_r.
    repeat match goal with
           | |- context [?a =? ?b] => destruct (Z.eqb_spec a b); [lia|]
           end.
    destruct (Z.leb_spec c 126); [lia|].
    destruct (Z.ltb_spec c 32); [lia|].
    rewrite !andb_false_r. cbn [orb negb]. reflexivity.
  - intros k_text k_start k_duration prog video_id w0 entries H.
    destruct (get_transcript video_id (initial w0)) as [o p1] eqn:Eg.
    cbn [fst] in H. subst o.
    rewrite (run_retrieved prog _ _ _ _ Eg), expected_output_entries.
    reflexivity.
  - intros s. reflexivity.
  - apply token_plain.
  - intros c Hc. split; [now apply token_bmp|].
    split; [apply format_04x_digits|].
    destruct (read_04x_format c) as (d3 & d2 & d1 & d0 & E & Hv); [lia|].
    exists d3, d2, d1, d0. split; [exact E | exact Hv].
  - apply token_astral.
Qed.

(** X10. The line printed for a provider entry determines its text:
    two entries whose texts hold no surrogate code points and differ are
    never serialised to the same line. *)
Theorem line_determines_the_text
  (k_text k_start k_duration : pystr) (e e' : entry) :
  Forall scalar_value (text e) -> Forall scalar_value (text e') ->
  json_dumps (entry_dict k_text k_start k_duration e) =
    json_dumps (entry_dict k_text k_start k_duration e') ->
  text e = text e'.
Proof.
  intros Hs Hs' E. rewrite !json_dumps_entry_dict in E.
  assert (E' : json_object_line k_text k_start k_duration e =
               json_object_line k_text k_start k_duration e') by congruence.
  unfold json_object_line in E'.
  apply (app_inv_head (lit "{")) in E'.
  apply (app_inv_head (py_encode_basestring_ascii k_text)) in E'.
  apply (app_inv_head (lit ": ")) in E'.
  exact (proj1 (py_encode_basestring_ascii_cancel _ _ _ _ Hs Hs' E')).
Qed.



End PrintableFloats.

End Program.

Arguments stdout {world} p.
Arguments stderr {world} p.
Arguments requests {world} p.
Arguments remote {world} p.
Arguments mkProcess {world} stdout stderr requests remote.
Arguments initial {world} w.

(** ** The theorems at work on the scripted provider *)

Local Abbreviation demo_run := (run toy_float_repr scripted_world scripted_provider).
Local Abbreviation demo_get_transcript := (get_transcript scripted_world scripted_provider).

Lemma toy_float_repr_printable (x : spec_float) : Forall printable (toy_float_repr x).
Proof. destruct x as [[|]|s| |s m e]; cbn [toy_float_repr]; literal. Qed.

Lemma first_error_is_propagated_witness :
  fst (demo_get_transcript demo_video
         (initial [Failure no_transcript; Failure transcripts_disabled])) =
    Raised no_transcript
  /\ stderr (snd (demo_run [demo_prog; demo_video]
                    [Failure no_transcript; Failure transcripts_disabled])) =
       lit "Error: No transcripts were found for [en]" ++ [10].
Proof.
  destruct (first_error_is_propagated toy_float_repr scripted_world
              scripted_provider demo_video
              (initial [Failure no_transcript; Failure transcripts_disabled]))
    as [_ H].
  destruct (H no_transcript [Failure transcripts_disabled] eq_refl) as [_ H2].
  destruct (H2 transcripts_disabled [] eq_refl) as [Hraised Hstderr].
  split; [exact Hraised | exact (Hstderr demo_prog)].
Defined.

Lemma usage_unless_one_argument_witness :
  demo_run [demo_prog] [Success demo_transcript] =
    (1, mkProcess [] (lit "Usage: python get_transcript.py <video_id>" ++ [10]) []
          [Success demo_transcript])
  /\ demo_run [demo_prog; demo_video; lit "en"] [Success demo_transcript] =
       (1, mkProcess [] (lit "Usage: python get_transcript.py <video_id>" ++ [10]) []
             [Success demo_transcript])
  /\ List.length [demo_video] = 1%nat.
Proof.
  split; [|split].
  - apply (proj1 (usage_unless_one_argument toy_float_repr scripted_world
                    scripted_provider demo_prog [] [Success demo_transcript])).
    cbn. lia.
  - apply (proj1 (usage_unless_one_argument toy_float_repr scripted_world
                    scripted_provider demo_prog [demo_video; lit "en"]
                    [Success demo_transcript])).
    cbn. lia.
  - apply (proj2 (usage_unless_one_argument toy_float_repr scripted_world
                    scripted_provider demo_prog [demo_video]
                    [Success demo_transcript])).
    vm_compute. discriminate.
Defined.

Lemma one_json_object_per_entry_witness :
  fst (demo_run [demo_prog; demo_video] [Success demo_transcript]) = 0
  /\ stdout (snd (demo_run [demo_prog; demo_video] [Success demo_transcript])) =
       (lit "{" ++ [34] ++ lit "text" ++ [34] ++ lit ": " ++ [34]
          ++ lit "caf\u00e9\nol" ++ [34] ++ lit ", " ++ [34] ++ lit "start"
          ++ [34] ++ lit ": 0.0, " ++ [34] ++ lit "duration" ++ [34]
          ++ lit ": 1.5}" ++ [10])
       ++ (lit "{" ++ [34] ++ lit "text" ++ [34] ++ lit ": " ++ [34]
          ++ lit "[Music]" ++ [34] ++ lit ", " ++ [34] ++ lit "start"
          ++ [34] ++ lit ": 1.5, " ++ [34] ++ lit "duration" ++ [34]
          ++ lit ": 1.5}" ++ [10]).
Proof.
  destruct (one_json_object_per_entry toy_float_repr scripted_world
              scripted_provider toy_float_repr_printable
              (lit "text") (lit "start") (lit "duration")
              demo_prog demo_video [Success demo_transcript] demo_entries eq_refl)
    as (Hstatus & Hstdout & _).
  split; [exact Hstatus | exact Hstdout].
Defined.

Lemma retrieval_failure_is_reported_witness :
  demo_run [demo_prog; demo_video]
    [Failure no_transcript; Failure transcripts_disabled] =
    (1, mkProcess [] (lit "Error: No transcripts were found for [en]" ++ [10])
          [(demo_video, [lit "en"]); (demo_video, [lit "en-US"; lit "en-GB"])] []).
Proof.
  exact (retrieval_failure_is_reported toy_float_repr scripted_world
           scripted_provider demo_prog demo_video
           [Failure no_transcript; Failure transcripts_disabled]
           no_transcript [Failure transcripts_disabled] transcripts_disabled []
           eq_refl eq_refl).
Defined.

Lemma exit_status_is_0_or_1_witness :
  fst (demo_run [demo_prog] []) = 1
  /\ fst (demo_run [demo_prog; demo_video] [Failure no_transcript]) = 1
  /\ fst (demo_run [demo_prog; demo_video] [Success demo_transcript]) = 0.
Proof.
  split; [|split].
  - destruct (exit_status_is_0_or_1 toy_float_repr scripted_world
                scripted_provider [demo_prog] []) as (_ & _ & H & _).
    apply H. cbn. lia.
  - destruct (exit_status_is_0_or_1 toy_float_repr scripted_world
                scripted_provider [demo_prog; demo_video] [Failure no_transcript])
      as (_ & _ & _ & H & _).
    exact (H demo_prog demo_video no_transcript eq_refl eq_refl).
  - destruct (exit_status_is_0_or_1 toy_float_repr scripted_world
                scripted_provider [demo_prog; demo_video] [Success demo_transcript])
      as (_ & _ & _ & _ & H).
    apply (proj2 H). exists demo_prog, demo_video, demo_transcript.
    split; [reflexivity|]. split; [reflexivity|].
    repeat constructor; eexists; vm_compute; reflexivity.
Defined.

Lemma fallback_output_same_as_primary_witness :
  fst (demo_run [demo_prog; demo_video] [Failure no_transcript; Success demo_transcript]) =
    fst (demo_run [demo_prog; demo_video] [Success demo_transcript])
  /\ stdout (snd (demo_run [demo_prog; demo_video]
                    [Failure no_transcript; Success demo_transcript])) =
       stdout (snd (demo_run [demo_prog; demo_video] [Success demo_transcript])).
Proof.
  destruct (fallback_output_same_as_primary toy_float_repr scripted_world
              scripted_provider demo_prog demo_video
              [Failure no_transcript; Success demo_transcript]
              [Success demo_transcript]
              no_transcript [Success demo_transcript] demo_transcript [] []
              eq_refl eq_refl eq_refl)
    as (_ & _ & Hstatus & Hstdout & _).
  split; [exact Hstatus | exact Hstdout].
Defined.

Lemma entries_only_serialised_and_printed_witness :
  requests (snd (demo_run [demo_prog; demo_video]
                   [Success (demo_transcript ++ [PObject (lit "set")])])) =
    [(demo_video, [lit "en"])]
  /\ remote (snd (demo_run [demo_prog; demo_video]
                    [Success (demo_transcript ++ [PObject (lit "set")])])) = [].
Proof.
  destruct (entries_only_serialised_and_printed toy_float_repr scripted_world
              scripted_provider demo_prog demo_video
              [Success (demo_transcript ++ [PObject (lit "set")])]
              (demo_transcript ++ [PObject (lit "set")])
              (mkProcess [] [] [(demo_video, [lit "en"])] [])
              eq_refl)
    as (_ & Hrequests & Hremote & _).
  split; [exact Hrequests | exact Hremote].
Defined.

Lemma same_transcript_same_stdout_witness :
  stdout (snd (demo_run [demo_prog; demo_video] [Success demo_transcript])) =
  stdout (snd (demo_run [demo_prog; demo_video]
                 [Failure transcripts_disabled; Success demo_transcript;
                  Failure no_transcript])).
Proof.
  exact (same_transcript_same_stdout toy_float_repr scripted_world
           scripted_provider demo_prog demo_video
           [Success demo_transcript]
           [Failure transcripts_disabled; Success demo_transcript;
            Failure no_transcript]
           demo_transcript eq_refl eq_refl).
Defined.

Lemma empty_transcript_is_silent_witness :
  fst (demo_run [demo_prog; demo_video] [Success []]) = 0
  /\ stdout (snd (demo_run [demo_prog; demo_video] [Success []])) = []
  /\ stderr (snd (demo_run [demo_prog; demo_video] [Success []])) = [].
Proof.
  exact (empty_transcript_is_silent toy_float_repr scripted_world
           scripted_provider demo_prog demo_video [Success []] eq_refl).
Defined.

Lemma stdout_is_ascii_witness :
  Forall is_ascii
    (stdout (snd (demo_run [demo_prog; demo_video] [Success demo_transcript])))
  /\ escape_sub [233] = lit "\u00e9"
  /\ escape_sub [128512] = lit "\ud83d\ude00"
  /\ stdout (snd (demo_run [demo_prog; demo_video]
                    [Failure no_transcript; Success demo_transcript])) =
       (lit "{" ++ [34] ++ lit "text" ++ [34] ++ lit ": " ++ [34]
          ++ lit "caf\u00e9\nol" ++ [34] ++ lit ", " ++ [34] ++ lit "start"
          ++ [34] ++ lit ": 0.0, " ++ [34] ++ lit "duration" ++ [34]
          ++ lit ": 1.5}" ++ [10])
       ++ (lit "{" ++ [34] ++ lit "text" ++ [34] ++ lit ": " ++ [34]
          ++ lit "[Music]" ++ [34] ++ lit ", " ++ [34] ++ lit "start"
          ++ [34] ++ lit ": 1.5, " ++ [34] ++ lit "duration" ++ [34]
          ++ lit ": 1.5}" ++ [10])
  /\ token 233 = lit "\u00e9"
  /\ token 128512 = lit "\ud83d\ude00"
  /\ token 101 = [101].
Proof.
  destruct (stdout_is_ascii toy_float_repr scripted_world scripted_provider
              toy_float_repr_printable [demo_prog; demo_video]
              [Success demo_transcript])
    as (Hstdout & _ & Hescape & Hentries & _ & Hplain & Hbmp & Hastral).
  split; [exact Hstdout|]. split; [|split; [|split; [|split; [|split]]]].
  - apply (Hescape 233). lia.
  - apply (Hescape 128512). lia.
  - exact (Hentries (lit "text") (lit "start") (lit "duration")
             demo_prog demo_video
             [Failure no_transcript; Success demo_transcript]
             demo_entries eq_refl).
  - apply (proj1 (Hbmp 233 ltac:(lia))).
  - apply (Hastral 128512). lia.
  - apply (Hplain 101); lia.
Defined.

Lemma primary_success_skips_fallback_witness :
  requests (snd (demo_run [demo_prog; demo_video]
                   [Success demo_transcript; Failure transcripts_disabled])) =
    [(demo_video, [lit "en"])]
  /\ remote (snd (demo_run [demo_prog; demo_video]
                    [Success demo_transcript; Failure transcripts_disabled])) =
       [Failure transcripts_disabled].
Proof.
  destruct (primary_success_skips_fallback toy_float_repr scripted_world
              scripted_provider demo_prog demo_video
              [Success demo_transcript; Failure transcripts_disabled]
              demo_transcript [Failure transcripts_disabled] eq_refl)
    as (_ & Hrequests & Hremote).
  split; [exact Hrequests | exact Hremote].
Defined.

Lemma requests_name_only_the_argument_witness :
  exists rest,
    requests (snd (demo_run [demo_prog; []] [Failure no_transcript])) =
      ([], [lit "en"]) :: rest.
Proof.
  destruct (requests_name_only_the_argument toy_float_repr scripted_world
              scripted_provider [demo_prog; []] [Failure no_transcript])
    as (_ & _ & H).
  exact (H eq_refl).
Defined.

Lemma unserialisable_entry_stops_the_output_witness :
  demo_run [demo_prog; demo_video]
    [Success (demo_transcript ++ PObject (lit "set") :: demo_transcript)] =
    (1, mkProcess
          (flat_map (fun line => line ++ [10])
             (map (json_object_line toy_float_repr
                     (lit "text") (lit "start") (lit "duration"))
                demo_entries))
          (lit "Error: Object of type set is not JSON serializable" ++ [10])
          [(demo_video, [lit "en"])] []).
Proof.
  apply (unserialisable_entry_stops_the_output toy_float_repr scripted_world
           scripted_provider demo_prog demo_video
           [Success (demo_transcript ++ PObject (lit "set") :: demo_transcript)]
           (mkProcess [] [] [(demo_video, [lit "en"])] [])
           demo_transcript
           (map (json_object_line toy_float_repr
                   (lit "text") (lit "start") (lit "duration"))
              demo_entries)
           (PObject (lit "set")) demo_transcript
           (TypeError (lit "Object of type set is not JSON serializable"))).
  - reflexivity.
  - repeat constructor.
  - reflexivity.
Defined.

Lemma stderr_empty_iff_success_witness :
  stderr (snd (demo_run [demo_prog; demo_video] [Success demo_transcript])) = []
  /\ fst (demo_run [demo_prog; demo_video]
            [Failure no_transcript; Success []]) = 0.
Proof.
  split.
  - apply (proj1 (stderr_empty_iff_success toy_float_repr scripted_world
                    scripted_provider [demo_prog; demo_video]
                    [Success demo_transcript])).
    reflexivity.
  - apply (proj2 (stderr_empty_iff_success toy_float_repr scripted_world
                    scripted_provider [demo_prog; demo_video]
                    [Failure no_transcript; Success []])).
    reflexivity.
Defined.

Lemma json_dumps_rejects_foreign_objects_witness :
  exists e,
    json_dumps toy_float_repr
      (PDict [(KStr (lit "text"), PList [PNone; PObject (lit "set")])]) =
      Failure e.
Proof.
  apply (json_dumps_rejects_foreign_objects toy_float_repr
           (PDict [(KStr (lit "text"), PList [PNone; PObject (lit "set")])])).
  reflexivity.
Defined.

Lemma foreign_object_fails_the_run_witness :
  fst (demo_run [demo_prog; demo_video]
         [Success (demo_transcript ++ [PList [PObject (lit "bytes")]])]) = 1.
Proof.
  apply (foreign_object_fails_the_run toy_float_repr scripted_world
           scripted_provider demo_prog demo_video
           [Success (demo_transcript ++ [PList [PObject (lit "bytes")]])]
           (demo_transcript ++ [PList [PObject (lit "bytes")]])
           (mkProcess [] [] [(demo_video, [lit "en"])] []) eq_refl).
  reflexivity.
Defined.


Lemma text_literal_is_self_delimiting_witness :
  lit "caf" ++ [233; 10; 128512] = lit "caf" ++ [233; 10; 128512]
  /\ lit ": 1.5" = lit ": 1.5".
Proof.
  apply (text_literal_is_self_delimiting
           (lit "caf" ++ [233; 10; 128512]) (lit "caf" ++ [233; 10; 128512])
           (lit ": 1.5") (lit ": 1.5")).
  - repeat constructor; cbn; lia.
  - repeat constructor; cbn; lia.
  - reflexivity.
Defined.

Lemma line_determines_the_text_witness :
  text (mkEntry (lit "caf" ++ [233]) (S754_zero false) (S754_zero true)) =
  text (mkEntry (lit "caf" ++ [233]) (S754_zero true) (S754_zero false)).
Proof.
  apply (line_determines_the_text toy_float_repr_zero
           (lit "text") (lit "start") (lit "duration")).
  - repeat constructor; cbn; lia.
  - repeat constructor; cbn; lia.
  - reflexivity.
Defined.
